(** * Verification model of AcademiaVeritas/backend/services/blockchain_service.py

    Shallow embedding of the mock blockchain service:
    - a Python [str] is a list of Unicode code points ([pystr]);
    - [str.encode()] is UTF-8 encoding, which raises [UnicodeEncodeError]
      on surrogate code points;
    - [hashlib.sha256(...).hexdigest()] is SHA-256 (FIPS 180-4) followed by
      lowercase hexadecimal rendering;
    - a Python dict literal is an association list of keys and values, in
      the order the literal writes them;
    - an exception escaping a function is the left side of a sum. *)

From Stdlib Require Import ZArith List String Ascii Bool Lia.
Import ListNotations.
Open Scope Z_scope.
Open Scope string_scope.
Open Scope list_scope.
Open Scope Z_scope.

(** ** Python values *)

(** A Python [str]: a sequence of code points. *)
Definition pystr := list Z.

(** String literals of the source, written with ASCII characters. *)
Definition py (s : string) : pystr :=
  map (fun a => Z.of_nat (nat_of_ascii a)) (list_ascii_of_string s).

(** Python exceptions that the code paths below can raise. *)
Inductive exc :=
| UnicodeEncodeError (start stop : nat) (first_cp : Z)
    (* 'utf-8' codec, reason "surrogates not allowed" *)
| ValueError (msg : pystr).

(** The result of a Python call: it raises or it returns. *)
Definition outcome (A : Type) := (exc + A)%type.

Definition ret {A} (a : A) : outcome A := inr a.
Definition bind {A B} (m : outcome A) (k : A -> outcome B) : outcome B :=
  match m with inl e => inl e | inr a => k a end.
Notation "x <- m ;; k" := (bind m (fun x => k))
  (at level 61, m at next level, right associativity).

(** ** Hexadecimal and decimal rendering *)

Definition hex_digits : pystr := py "0123456789abcdef".

Definition hex_char (n : Z) : Z := nth (Z.to_nat n) hex_digits 48.

(** [n] rendered with exactly [k] lowercase hex digits (most significant first). *)
Fixpoint hex_fixed (k : nat) (n : Z) : pystr :=
  match k with
  | O => []
  | S k' => hex_fixed k' (Z.shiftr n 4) ++ [hex_char (Z.land n 15)]
  end.

(** Decimal digits of a natural number, most significant first. *)
Fixpoint dec_digits_fuel (fuel : nat) (n : Z) (acc : pystr) : pystr :=
  match fuel with
  | O => acc
  | S f =>
      let acc' := (48 + n mod 10) :: acc in
      if n <? 10 then acc' else dec_digits_fuel f (n / 10) acc'
  end.

Definition dec_digits (n : Z) : pystr :=
  dec_digits_fuel (S (Z.to_nat (Z.log2 (Z.max 1 n)))) n [].

(** CPython's limit on int-to-decimal conversion ([sys.int_info.default_max_str_digits]). *)
Definition int_max_str_digits : nat := 4300.

(** [str(n)] / [f"{n}"] for a Python int: raises [ValueError] above the
    digit limit. *)
Definition int_to_str (n : Z) : outcome pystr :=
  let ds := dec_digits (Z.abs n) in
  if (int_max_str_digits <? List.length ds)%nat then
    inl (ValueError (py "Exceeds the limit (4300 digits) for integer string conversion; use sys.set_int_max_str_digits() to increase the limit"))
  else ret (if n <? 0 then 45 :: ds else ds).

(** ** UTF-8 encoding ([str.encode()] with the default codec and ["strict"] errors) *)

Definition is_surrogate (c : Z) : bool := (55296 <=? c) && (c <=? 57343).

Definition utf8_char (c : Z) : list Z :=
  if c <? 128 then [c]
  else if c <? 2048 then
    [Z.lor 192 (Z.shiftr c 6); Z.lor 128 (Z.land c 63)]
  else if c <? 65536 then
    [Z.lor 224 (Z.shiftr c 12); Z.lor 128 (Z.land (Z.shiftr c 6) 63);
     Z.lor 128 (Z.land c 63)]
  else
    [Z.lor 240 (Z.shiftr c 18); Z.lor 128 (Z.land (Z.shiftr c 12) 63);
     Z.lor 128 (Z.land (Z.shiftr c 6) 63); Z.lor 128 (Z.land c 63)].

(** Length of the run of surrogates at the head of a string. *)
Fixpoint surrogate_run (s : pystr) : nat :=
  match s with
  | c :: s' => if is_surrogate c then S (surrogate_run s') else O
  | [] => O
  end.

(** The encoder scans left to right; at the first surrogate it raises an
    error covering the whole run of consecutive surrogates. *)
Fixpoint encode_from (pos : nat) (s : pystr) : outcome (list Z) :=
  match s with
  | [] => ret []
  | c :: s' =>
      if is_surrogate c then inl (UnicodeEncodeError pos (pos + surrogate_run s)%nat c)
      else rest <- encode_from (S pos) s' ;; ret (utf8_char c ++ rest)
  end.

Definition encode (s : pystr) : outcome (list Z) := encode_from O s.

(** [str(e)] for the exceptions above. *)
Definition exc_str (e : exc) : pystr :=
  match e with
  | UnicodeEncodeError start stop c =>
      if (stop =? S start)%nat then
        py "'utf-8' codec can't encode character '\u" ++ hex_fixed 4 c
          ++ py "' in position " ++ dec_digits (Z.of_nat start)
          ++ py ": surrogates not allowed"
      else
        py "'utf-8' codec can't encode characters in position "
          ++ dec_digits (Z.of_nat start) ++ py "-" ++ dec_digits (Z.of_nat (stop - 1))
          ++ py ": surrogates not allowed"
  | ValueError m => m
  end.

(** ** SHA-256 ([hashlib.sha256], FIPS 180-4) over a list of bytes *)

Module Sha256.

Definition mask32 (x : Z) : Z := Z.land x 4294967295.
Definition add32 (x y : Z) : Z := mask32 (x + y).
Definition rotr (n x : Z) : Z :=
  Z.lor (Z.shiftr x n) (mask32 (Z.shiftl x (32 - n))).
Definition ch (x y z : Z) : Z := Z.lxor (Z.land x y) (Z.land (Z.lxor x 4294967295) z).
Definition maj (x y z : Z) : Z := Z.lxor (Z.lxor (Z.land x y) (Z.land x z)) (Z.land y z).
Definition big_sigma0 (x : Z) : Z := Z.lxor (Z.lxor (rotr 2 x) (rotr 13 x)) (rotr 22 x).
Definition big_sigma1 (x : Z) : Z := Z.lxor (Z.lxor (rotr 6 x) (rotr 11 x)) (rotr 25 x).
Definition small_sigma0 (x : Z) : Z := Z.lxor (Z.lxor (rotr 7 x) (rotr 18 x)) (Z.shiftr x 3).
Definition small_sigma1 (x : Z) : Z := Z.lxor (Z.lxor (rotr 17 x) (rotr 19 x)) (Z.shiftr x 10).

(** Round constants: first 32 bits of the fractional parts of the cube
    roots of the first 64 primes. *)
Definition round_k : list Z :=
  [1116352408; 1899447441; 3049323471; 3921009573; 961987163; 1508970993;
   2453635748; 2870763221; 3624381080; 310598401; 607225278; 1426881987;
   1925078388; 2162078206; 2614888103; 3248222580; 3835390401; 4022224774;
   264347078; 604807628; 770255983; 1249150122; 1555081692; 1996064986;
   2554220882; 2821834349; 2952996808; 3210313671; 3336571891; 3584528711;
   113926993; 338241895; 666307205; 773529912; 1294757372; 1396182291;
   1695183700; 1986661051; 2177026350; 2456956037; 2730485921; 2820302411;
   3259730800; 3345764771; 3516065817; 3600352804; 4094571909; 275423344;
   430227734; 506948616; 659060556; 883997877; 958139571; 1322822218;
   1537002063; 1747873779; 1955562222; 2024104815; 2227730452; 2361852424;
   2428436474; 2756734187; 3204031479; 3329325298].

(** The eight working variables / chaining value. *)
Record state := St { ha : Z; hb : Z; hc : Z; hd : Z; he : Z; hf : Z; hg : Z; hh : Z }.

Definition iv : state :=
  St 1779033703 3144134277 1013904242 2773480762
     1359893119 2600822924 528734635 1541459225.

(** Padding: a 1 bit, zeros up to 56 mod 64 bytes, the bit length in 64 bits. *)
Fixpoint be_bytes (k : nat) (n : Z) : list Z :=
  match k with
  | O => []
  | S k' => be_bytes k' (Z.shiftr n 8) ++ [Z.land n 255]
  end.

Definition pad (msg : list Z) : list Z :=
  let len := Z.of_nat (List.length msg) in
  msg ++ [128] ++ repeat 0 (Z.to_nat ((55 - len) mod 64)) ++ be_bytes 8 (8 * len).

Fixpoint blocks (n : nat) (bs : list Z) : list (list Z) :=
  match n with
  | O => []
  | S n' => firstn 64 bs :: blocks n' (skipn 64 bs)
  end.

Fixpoint be_words (n : nat) (bs : list Z) : list Z :=
  match n with
  | O => []
  | S n' =>
      match bs with
      | b0 :: b1 :: b2 :: b3 :: rest =>
          Z.lor (Z.shiftl b0 24) (Z.lor (Z.shiftl b1 16) (Z.lor (Z.shiftl b2 8) b3))
            :: be_words n' rest
      | _ => []
      end
  end.

(** Message schedule W_0 .. W_63, built by appending W_t for t = 16 .. 63. *)
Fixpoint schedule_from (fuel : nat) (t : nat) (w : list Z) : list Z :=
  match fuel with
  | O => w
  | S f =>
      let wt := add32 (add32 (small_sigma1 (nth (t - 2) w 0)) (nth (t - 7) w 0))
                      (add32 (small_sigma0 (nth (t - 15) w 0)) (nth (t - 16) w 0)) in
      schedule_from f (S t) (w ++ [wt])
  end.

Definition schedule (block : list Z) : list Z :=
  schedule_from 48 16 (be_words 16 block).

Definition round (s : state) (kw : Z * Z) : state :=
  let '(k, w) := kw in
  let t1 := add32 (add32 (add32 (hh s) (big_sigma1 (he s)))
                         (add32 (ch (he s) (hf s) (hg s)) k)) w in
  let t2 := add32 (big_sigma0 (ha s)) (maj (ha s) (hb s) (hc s)) in
  St (add32 t1 t2) (ha s) (hb s) (hc s) (add32 (hd s) t1) (he s) (hf s) (hg s).

Definition compress (s : state) (block : list Z) : state :=
  let s' := fold_left round (combine round_k (schedule block)) s in
  St (add32 (ha s) (ha s')) (add32 (hb s) (hb s')) (add32 (hc s) (hc s'))
     (add32 (hd s) (hd s')) (add32 (he s) (he s')) (add32 (hf s) (hf s'))
     (add32 (hg s) (hg s')) (add32 (hh s) (hh s')).

Definition hash_state (msg : list Z) : state :=
  let p := pad msg in
  fold_left compress (blocks (Nat.div (List.length p) 64) p) iv.

(** [.hexdigest()]: each 32-bit word as 8 lowercase hex digits. *)
Definition hexdigest (msg : list Z) : pystr :=
  let s := hash_state msg in
  hex_fixed 8 (ha s) ++ hex_fixed 8 (hb s) ++ hex_fixed 8 (hc s) ++ hex_fixed 8 (hd s)
  ++ hex_fixed 8 (he s) ++ hex_fixed 8 (hf s) ++ hex_fixed 8 (hg s) ++ hex_fixed 8 (hh s).

End Sha256.

Example sha256_abc :
  Sha256.hexdigest (py "abc")
  = py "ba7816bf8f01cfea414140de5dae2223b00361a396177a9cb410ff61f20015ad".
Proof. vm_compute. reflexivity. Qed.

Example sha256_empty :
  Sha256.hexdigest []
  = py "e3b0c44298fc1c149afbf4c8996fb92427ae41e4649b934ca495991b7852b855".
Proof. vm_compute. reflexivity. Qed.

Example sha256_two_blocks :
  Sha256.hexdigest (py "abcdbcdecdefdefgefghfghighijhijkijkljklmklmnlmnomnopnopq")
  = py "248d6a61d20638b8e5c026930c3e6039a33ce45964ff2167f6ecedd419db06c1".
Proof. vm_compute. reflexivity. Qed.

Example utf8_e_acute : encode [233] = inr [195; 169].
Proof. reflexivity. Qed.

Example int_to_str_neg : int_to_str (-407) = inr (py "-407").
Proof. reflexivity. Qed.

(** ** Process environment ([os.getenv]) *)

Definition environ := list (string * pystr).

Fixpoint getenv (env : environ) (key : string) : option pystr :=
  match env with
  | [] => None
  | (k, v) :: env' => if String.eqb k key then Some v else getenv env' key
  end.

(** [os.getenv(key, default)] *)
Definition getenv_default (env : environ) (key : string) (default : pystr) : pystr :=
  match getenv env key with Some v => v | None => default end.

(** Truthiness of an [Optional[str]]: [None] and [''] are false. *)
Definition truthy (o : option pystr) : bool :=
  match o with Some (_ :: _) => true | _ => false end.

(** ** Result dictionaries *)

Inductive pyval :=
| PBool (b : bool)
| PInt (n : Z)
| PStr (s : pystr)
| PNone.

Definition dict := list (string * pyval).

(** [d.get(key)]: [None] (here [None] of Rocq) when the key is absent. *)
Fixpoint dict_get (d : dict) (key : string) : option pyval :=
  match d with
  | [] => None
  | (k, v) :: d' => if String.eqb k key then Some v else dict_get d' key
  end.

(** [try: body except Exception as e: handler(e)] *)
Definition try_except {A} (body : outcome A) (handler : exc -> outcome A) : outcome A :=
  match body with inl e => handler e | inr a => inr a end.

(** ** class BlockchainService *)

Record BlockchainService := {
  infura_api_key : option pystr;
  network_url : option pystr
}.

(** [__init__]: reads [INFURA_API_KEY] from the environment. *)
Definition init (env : environ) : BlockchainService :=
  let key := getenv env "INFURA_API_KEY" in
  {| infura_api_key := key;
     network_url :=
       if truthy key
       then Some (py "https://sepolia.infura.io/v3/" ++ getenv_default env "INFURA_API_KEY" [])
       else None |}.

Definition startswith_a (s : pystr) : bool :=
  match s with c :: _ => c =? 97 | [] => false end.

(** [_generate_mock_tx_hash]; [SECRET_KEY] is read at call time. *)
Definition _generate_mock_tx_hash (env : environ) (certificate_hash : pystr)
    (institution_id : Z) : outcome pystr :=
  id_str <- int_to_str institution_id ;;
  let data := certificate_hash ++ py "_" ++ id_str ++ py "_"
              ++ getenv_default env "SECRET_KEY" (py "default") in
  bytes <- encode data ;;
  ret (py "0x" ++ firstn 40 (Sha256.hexdigest bytes)).

(** [_simulate_blockchain_verification] *)
Definition _simulate_blockchain_verification (certificate_hash : pystr) : bool :=
  (0 <? Z.of_nat (List.length certificate_hash)) && startswith_a certificate_hash.

Definition store_not_configured : dict :=
  [("success", PBool false);
   ("error", PStr (py "Blockchain service not configured. INFURA_API_KEY is missing."));
   ("tx_hash", PNone)].

Definition store_stored (tx : pystr) : dict :=
  [("success", PBool true);
   ("tx_hash", PStr tx);
   ("block_number", PInt 12345678);
   ("gas_used", PInt 21000);
   ("message", PStr (py "Certificate hash stored on blockchain successfully"))].

Definition store_failed (e : exc) : dict :=
  [("success", PBool false);
   ("error", PStr (py "Blockchain transaction failed: " ++ exc_str e));
   ("tx_hash", PNone)].

(** [store_certificate_hash] *)
Definition store_certificate_hash (self : BlockchainService) (env : environ)
    (certificate_hash : pystr) (institution_id : Z) : outcome dict :=
  try_except
    (if negb (truthy (infura_api_key self)) then ret store_not_configured
     else
       mock_tx_hash <- _generate_mock_tx_hash env certificate_hash institution_id ;;
       ret (store_stored mock_tx_hash))
    (fun e => ret (store_failed e)).

Definition verify_not_configured : dict :=
  [("verified", PBool false);
   ("error", PStr (py "Blockchain service not configured"));
   ("tx_hash", PNone)].

Definition verify_failed (e : exc) : dict :=
  [("verified", PBool false);
   ("error", PStr (py "Blockchain verification failed: " ++ exc_str e));
   ("tx_hash", PNone)].

(** [verify_certificate_hash] *)
Definition verify_certificate_hash (self : BlockchainService) (env : environ)
    (certificate_hash : pystr) : outcome dict :=
  try_except
    (if negb (truthy (infura_api_key self)) then ret verify_not_configured
     else
       let is_verified := _simulate_blockchain_verification certificate_hash in
       tx <- (if is_verified
              then t <- _generate_mock_tx_hash env certificate_hash 1 ;; ret (PStr t)
              else ret PNone) ;;
       ret [("verified", PBool is_verified);
            ("tx_hash", tx);
            ("block_number", if is_verified then PInt 12345678 else PNone);
            ("message", PStr (if is_verified
                              then py "Certificate verified on blockchain"
                              else py "Certificate not found on blockchain"))])
    (fun e => ret (verify_failed e)).

(** ** Module level: the global instance, built from the environment at
    import time, and the two convenience functions. *)

Definition blockchain_service (import_env : environ) : BlockchainService :=
  init import_env.

Definition store_certificate_on_blockchain (import_env env : environ)
    (certificate_hash : pystr) (institution_id : Z) : outcome dict :=
  store_certificate_hash (blockchain_service import_env) env certificate_hash institution_id.

Definition verify_certificate_on_blockchain (import_env env : environ)
    (certificate_hash : pystr) : outcome dict :=
  verify_certificate_hash (blockchain_service import_env) env certificate_hash.

(** ** Call sequences against one service object

    The methods read [self] but never assign to it, and the module keeps no
    other state, so a sequence of calls is answered call by call. *)

Inductive call :=
| Store (certificate_hash : pystr) (institution_id : Z)
| Verify (certificate_hash : pystr).

Definition exec (self : BlockchainService) (env : environ) (c : call) : outcome dict :=
  match c with
  | Store h i => store_certificate_hash self env h i
  | Verify h => verify_certificate_hash self env h
  end.

Definition run (self : BlockchainService) (env : environ) (calls : list call)
    : list (outcome dict) :=
  map (exec self env) calls.

Fixpoint pystr_eqb (s t : pystr) : bool :=
  match s, t with
  | [], [] => true
  | c :: s', d :: t' => (c =? d) && pystr_eqb s' t'
  | _, _ => false
  end.


(** [h] was never passed to the anchoring operation in [calls]. *)
Definition never_submitted (h : pystr) (calls : list call) : bool :=
  forallb (fun c => match c with
                    | Store h' _ => negb (pystr_eqb h h')
                    | Verify _ => true
                    end) calls.

(** Field of a returned dictionary (absent when the call raised). *)
Definition field (key : string) (r : outcome dict) : option pyval :=
  match r with inr d => dict_get d key | inl _ => None end.

(** Valid content hash: 64 lowercase or uppercase hex digits. *)
Definition is_hex_char (c : Z) : bool :=
  ((48 <=? c) && (c <=? 57)) || ((97 <=? c) && (c <=? 102)) || ((65 <=? c) && (c <=? 70)).

Definition valid_content_hash (h : pystr) : bool :=
  (List.length h =? 64)%nat && forallb is_hex_char h.

(** Environments used in the concrete checks. *)
Definition env_configured : environ :=
  [("INFURA_API_KEY", py "0123abcd"); ("SECRET_KEY", py "s3cret")].
Definition env_unconfigured : environ := [("SECRET_KEY", py "s3cret")].

(** A valid 64-hex content hash that does not start with [a]. *)
Definition zero_hash : pystr := repeat 48 64.

(** A valid hash starting with 'a'. *)
Definition a_hash : pystr := 97 :: repeat 48 63.

Definition env_other_key : environ :=
  [("SECRET_KEY", py "s3cret"); ("INFURA_API_KEY", py "ffff")].

Definition env_no_secret : environ := [("INFURA_API_KEY", py "0123abcd")].

(** ** Predicates used in the statements *)

Definition no_surrogates (s : pystr) : bool :=
  forallb (fun c => negb (is_surrogate c)) s.

Definition is_hex_lower (c : Z) : bool := existsb (Z.eqb c) hex_digits.

(** The value [os.getenv('SECRET_KEY', 'default')] read by [_generate_mock_tx_hash]. *)
Definition secret_key (env : environ) : pystr := getenv_default env "SECRET_KEY" (py "default").

(** ** General lemmas *)

Lemma hex_fixed_length : forall k n, List.length (hex_fixed k n) = k.
Proof.
  induction k as [|k IH]; intro n; simpl; [reflexivity|].
  rewrite length_app, IH. simpl. lia.
Qed.

Lemma hex_char_hex : forall n, is_hex_lower (hex_char n) = true.
Proof.
  intro n. unfold is_hex_lower, hex_char.
  destruct (nth_in_or_default (Z.to_nat n) hex_digits 48) as [Hin|Hd].
  - apply existsb_exists. exists (nth (Z.to_nat n) hex_digits 48).
    split; [exact Hin | apply Z.eqb_refl].
  - rewrite Hd. reflexivity.
Qed.

Lemma hex_fixed_hex : forall k n, forallb is_hex_lower (hex_fixed k n) = true.
Proof.
  induction k as [|k IH]; intro n; simpl; [reflexivity|].
  rewrite forallb_app, IH. simpl. rewrite hex_char_hex. reflexivity.
Qed.

Lemma hexdigest_length : forall m, List.length (Sha256.hexdigest m) = 64%nat.
Proof.
  intro m. unfold Sha256.hexdigest. rewrite !length_app, !hex_fixed_length. reflexivity.
Qed.

Lemma hexdigest_hex : forall m, forallb is_hex_lower (Sha256.hexdigest m) = true.
Proof.
  intro m. unfold Sha256.hexdigest. rewrite !forallb_app, !hex_fixed_hex. reflexivity.
Qed.

Lemma forallb_firstn {A} (f : A -> bool) : forall n l,
  forallb f l = true -> forallb f (firstn n l) = true.
Proof.
  induction n as [|n IH]; intros [|x l] H; simpl in *; try reflexivity.
  apply andb_true_iff in H as [Hx Hl]. rewrite Hx, (IH l Hl). reflexivity.
Qed.

Lemma encode_from_cases : forall s pos,
  (no_surrogates s = true /\ exists b, encode_from pos s = inr b)
  \/ (no_surrogates s = false /\ exists e, encode_from pos s = inl e).
Proof.
  induction s as [|c s IH]; intro pos; simpl.
  - left. split; [reflexivity | eexists; reflexivity].
  - destruct (is_surrogate c) eqn:Hc; simpl.
    + right. split; [reflexivity | eexists; reflexivity].
    + destruct (IH (S pos)) as [[Hs [b Hb]] | [Hs [e He]]]; rewrite Hb || rewrite He;
        simpl; [left | right]; split; eauto.
Qed.

Lemma dec_digits_fuel_no_surrogates : forall f n acc,
  no_surrogates acc = true -> no_surrogates (dec_digits_fuel f n acc) = true.
Proof.
  induction f as [|f IH]; intros n acc H; simpl; [exact H|].
  assert (Hd : no_surrogates ((48 + n mod 10) :: acc) = true).
  { change (negb (is_surrogate (48 + n mod 10)) && no_surrogates acc = true).
    rewrite H. unfold is_surrogate.
    pose proof (Z.mod_pos_bound n 10 ltac:(lia)).
    replace (55296 <=? 48 + n mod 10) with false by (symmetry; apply Z.leb_gt; lia).
    reflexivity. }
  destruct (n <? 10); [exact Hd | apply IH; exact Hd].
Qed.

Lemma int_to_str_ok : forall i,
  (List.length (dec_digits (Z.abs i)) <= int_max_str_digits)%nat ->
  exists s, int_to_str i = inr s /\ no_surrogates s = true.
Proof.
  intros i Hi. unfold int_to_str.
  replace (int_max_str_digits <? List.length (dec_digits (Z.abs i)))%nat with false
    by (symmetry; apply Nat.ltb_ge; exact Hi).
  pose proof (dec_digits_fuel_no_surrogates
                (S (Z.to_nat (Z.log2 (Z.max 1 (Z.abs i))))) (Z.abs i) [] eq_refl) as Hd.
  fold (dec_digits (Z.abs i)) in Hd.
  eexists. split; [reflexivity|].
  destruct (i <? 0); simpl; rewrite ?Hd; reflexivity.
Qed.

Lemma simulate_startswith : forall h,
  _simulate_blockchain_verification h = startswith_a h.
Proof. intros [|c h]; reflexivity. Qed.

(** The mock transaction hash succeeds exactly on surrogate-free data and
    is then [0x] followed by 40 lowercase hex digits. *)
Lemma generate_ok : forall env h i,
  no_surrogates h = true -> no_surrogates (secret_key env) = true ->
  (List.length (dec_digits (Z.abs i)) <= int_max_str_digits)%nat ->
  exists t, _generate_mock_tx_hash env h i = inr (py "0x" ++ t)
            /\ List.length t = 40%nat /\ forallb is_hex_lower t = true.
Proof.
  intros env h i Hh Hs Hi. unfold _generate_mock_tx_hash.
  destruct (int_to_str_ok i Hi) as [ds [Hds Hdsn]]. rewrite Hds. cbn [bind].
  fold (secret_key env). unfold encode.
  destruct (encode_from_cases (h ++ py "_" ++ ds ++ py "_" ++ secret_key env) O)
    as [[_ [b Hb]] | [Hn _]].
  - rewrite Hb. cbn [bind]. exists (firstn 40 (Sha256.hexdigest b)). split; [reflexivity | split].
    + rewrite length_firstn, hexdigest_length. reflexivity.
    + apply forallb_firstn, hexdigest_hex.
  - unfold no_surrogates in Hn. rewrite !forallb_app in Hn.
    unfold no_surrogates in Hh, Hs, Hdsn. rewrite Hh, Hs, Hdsn in Hn. discriminate.
Qed.

Lemma generate_fail : forall env h i,
  no_surrogates h && no_surrogates (secret_key env) = false ->
  exists e, _generate_mock_tx_hash env h i = inl e.
Proof.
  intros env h i Hn. unfold _generate_mock_tx_hash.
  destruct (int_to_str i) as [e|ds] eqn:Hds; cbn [bind]; [eexists; reflexivity|].
  fold (secret_key env). unfold encode.
  destruct (encode_from_cases (h ++ py "_" ++ ds ++ py "_" ++ secret_key env) O)
    as [[Hy _] | [_ [e He]]].
  - unfold no_surrogates in Hy, Hn. rewrite !forallb_app in Hy.
    apply andb_true_iff in Hy as [Hh Hy]. apply andb_true_iff in Hy as [_ Hy].
    apply andb_true_iff in Hy as [_ Hy]. apply andb_true_iff in Hy as [_ Hs].
    rewrite Hh, Hs in Hn. discriminate.
  - rewrite He. cbn [bind]. eexists. reflexivity.
Qed.

(** ** Shapes of the two methods' results *)

Lemma store_unconfigured : forall self env h i,
  truthy (infura_api_key self) = false ->
  store_certificate_hash self env h i = inr store_not_configured.
Proof.
  intros self env h i Hk. unfold store_certificate_hash. rewrite Hk. reflexivity.
Qed.

Lemma store_success : forall self env h i,
  truthy (infura_api_key self) = true ->
  no_surrogates h = true -> no_surrogates (secret_key env) = true ->
  (List.length (dec_digits (Z.abs i)) <= int_max_str_digits)%nat ->
  exists t, store_certificate_hash self env h i = inr (store_stored (py "0x" ++ t))
            /\ List.length t = 40%nat /\ forallb is_hex_lower t = true.
Proof.
  intros self env h i Hk Hh Hs Hi. unfold store_certificate_hash. rewrite Hk.
  destruct (generate_ok env h i Hh Hs Hi) as [t [Ht [Hl Hx]]].
  exists t. rewrite Ht. split; [reflexivity | split; assumption].
Qed.

Lemma verify_not_found : forall self env h,
  truthy (infura_api_key self) = true -> startswith_a h = false ->
  verify_certificate_hash self env h =
  inr [("verified", PBool false); ("tx_hash", PNone); ("block_number", PNone);
       ("message", PStr (py "Certificate not found on blockchain"))].
Proof.
  intros self env h Hk Ha. unfold verify_certificate_hash.
  rewrite Hk, simulate_startswith, Ha. reflexivity.
Qed.

Lemma verify_found : forall self env h,
  truthy (infura_api_key self) = true -> startswith_a h = true ->
  no_surrogates h = true -> no_surrogates (secret_key env) = true ->
  exists t, verify_certificate_hash self env h =
  inr [("verified", PBool true); ("tx_hash", PStr (py "0x" ++ t));
       ("block_number", PInt 12345678);
       ("message", PStr (py "Certificate verified on blockchain"))].
Proof.
  intros self env h Hk Ha Hh Hs. unfold verify_certificate_hash.
  rewrite Hk, simulate_startswith, Ha.
  destruct (generate_ok env h 1 Hh Hs ltac:(vm_compute; lia)) as [t [Ht _]].
  exists t. rewrite Ht. reflexivity.
Qed.

Lemma verify_raises_inside : forall self env h,
  truthy (infura_api_key self) = true -> startswith_a h = true ->
  no_surrogates h && no_surrogates (secret_key env) = false ->
  exists e, verify_certificate_hash self env h = inr (verify_failed e).
Proof.
  intros self env h Hk Ha Hn. unfold verify_certificate_hash.
  rewrite Hk, simulate_startswith, Ha.
  destruct (generate_fail env h 1 Hn) as [e He].
  exists e. rewrite He. reflexivity.
Qed.

Lemma verify_verified_field : forall self env h,
  truthy (infura_api_key self) = true ->
  field "verified" (verify_certificate_hash self env h)
  = Some (PBool (startswith_a h && no_surrogates h && no_surrogates (secret_key env))).
Proof.
  intros self env h Hk.
  destruct (startswith_a h) eqn:Ha.
  - cbn [andb].
    destruct (no_surrogates h && no_surrogates (secret_key env)) eqn:Hn.
    + apply andb_true_iff in Hn as [Hh Hs].
      destruct (verify_found self env h Hk Ha Hh Hs) as [t Ht]. rewrite Ht. reflexivity.
    + destruct (verify_raises_inside self env h Hk Ha Hn) as [e He]. rewrite He. reflexivity.
  - rewrite (verify_not_found self env h Hk Ha). reflexivity.
Qed.

Lemma outcome_inr_inj {A} (a b : A) : @inr exc A a = inr b -> a = b.
Proof. intro H. inversion H. reflexivity. Qed.

Lemma run_nth_middle : forall self env pre c post d,
  nth (List.length pre) (run self env (pre ++ c :: post)) d = exec self env c.
Proof.
  intros self env pre c post d. unfold run. rewrite map_app. cbn [map].
  rewrite <- (length_map (exec self env) pre). apply nth_middle.
Qed.


Lemma valid_content_hash_no_surrogates : forall h,
  valid_content_hash h = true -> no_surrogates h = true.
Proof.
  intros h Hv. apply andb_true_iff in Hv as [_ Hx].
  unfold no_surrogates. rewrite forallb_forall in *. intros c Hc.
  specialize (Hx c Hc). unfold is_hex_char, is_surrogate in *.
  apply orb_true_iff in Hx as [Hx|Hx]; [apply orb_true_iff in Hx as [Hx|Hx]|];
    apply andb_true_iff in Hx as [H1 H2]; apply Z.leb_le in H1; apply Z.leb_le in H2;
    replace (55296 <=? c) with false by (symmetry; apply Z.leb_gt; lia); reflexivity.
Qed.

(** ** Claims *)


(** C1 (counterexample): with the service configured, the hash "abc" has
    never been passed to the anchoring operation, yet verifying it returns
    verified=true. *)
Lemma verify_never_submitted_counterexample :
  never_submitted (py "abc") [Verify (py "abc")] = true /\
  map (field "verified") (run (init env_configured) env_configured [Verify (py "abc")])
  = [Some (PBool true)].
Proof. split; vm_compute; reflexivity. Qed.

(** C1 (amended): with the service configured, the verdict of a
    verification call does not depend on the calls made before it (anchoring
    or not): verified is true exactly when the hash starts with 'a' and the
    mock transaction hash can be computed, i.e. neither the hash nor
    SECRET_KEY contains a surrogate code point. *)
Theorem verify_independent_of_history : forall self env pre post h,
  truthy (infura_api_key self) = true ->
  field "verified" (nth (List.length pre) (run self env (pre ++ Verify h :: post)) (inr []))
  = Some (PBool (startswith_a h && no_surrogates h && no_surrogates (secret_key env))).
Proof.
  intros self env pre post h Hk.
  rewrite run_nth_middle. apply verify_verified_field. exact Hk.
Qed.

Lemma verify_independent_of_history_witness :
  truthy (infura_api_key (init env_configured)) = true /\
  field "verified"
    (nth (List.length [Store (py "abc") 7])
       (run (init env_configured) env_configured
          ([Store (py "abc") 7] ++ Verify (py "xyz") :: []))
       (inr []))
  = Some (PBool (startswith_a (py "xyz") && no_surrogates (py "xyz")
                 && no_surrogates (secret_key env_configured))).
Proof.
  split; [reflexivity|].
  apply (verify_independent_of_history (init env_configured) env_configured
           [Store (py "abc") 7] [] (py "xyz")).
  reflexivity.
Defined.

(** C2 (counterexample): "a" followed by the lone surrogate U+D800 starts
    with 'a', but the UTF-8 encoding inside [_generate_mock_tx_hash] raises,
    the exception is caught and verification reports verified=false. *)
Lemma verify_prefix_a_counterexample :
  startswith_a [97; 55296] = true /\
  field "verified" (verify_certificate_hash (init env_configured) env_configured [97; 55296])
  = Some (PBool false).
Proof. split; vm_compute; reflexivity. Qed.

(** C2 (amended): with the service configured, verification of a hash
    starting with 'a', at any point of any call sequence (whether or not the
    hash was anchored), reports verified=true when neither the hash nor
    SECRET_KEY contains a surrogate code point; otherwise the UTF-8 encoding
    in [_generate_mock_tx_hash] raises, the exception is caught and the call
    returns the "verification failed" dictionary, with verified=false. *)
Theorem verify_prefix_a_verified : forall self env pre post h,
  truthy (infura_api_key self) = true ->
  startswith_a h = true ->
  let r := nth (List.length pre) (run self env (pre ++ Verify h :: post)) (inr []) in
  (no_surrogates h = true -> no_surrogates (secret_key env) = true ->
   field "verified" r = Some (PBool true)) /\
  (no_surrogates h && no_surrogates (secret_key env) = false ->
   field "verified" r = Some (PBool false) /\ exists e, r = inr (verify_failed e)).
Proof.
  intros self env pre post h Hk Ha r. subst r.
  rewrite run_nth_middle. cbn [exec]. split.
  - intros Hh Hs. rewrite verify_verified_field by exact Hk.
    rewrite Ha, Hh, Hs. reflexivity.
  - intros Hn. destruct (verify_raises_inside self env h Hk Ha Hn) as [e He].
    rewrite He. split; [reflexivity | exists e; reflexivity].
Qed.

Lemma verify_prefix_a_verified_witness :
  field "verified"
    (nth (List.length (@nil call)) (run (init env_configured) env_configured ([] ++ Verify [97; 55296] :: []))
       (inr []))
  = Some (PBool false).
Proof.
  destruct (verify_prefix_a_verified (init env_configured) env_configured [] [] [97; 55296]
              eq_refl eq_refl) as [_ H].
  destruct (H eq_refl) as [Hv _]. exact Hv.
Defined.




(** C4: if INFURA_API_KEY is absent (or empty) when the service is built,
    anchoring returns success=false with the configuration error and
    tx_hash None, whatever the hash, institution id and call-time
    environment. *)
Theorem store_without_key : forall import_env env h i,
  truthy (getenv import_env "INFURA_API_KEY") = false ->
  store_certificate_hash (init import_env) env h i = inr store_not_configured /\
  field "success" (store_certificate_hash (init import_env) env h i) = Some (PBool false) /\
  field "error" (store_certificate_hash (init import_env) env h i)
  = Some (PStr (py "Blockchain service not configured. INFURA_API_KEY is missing.")) /\
  field "tx_hash" (store_certificate_hash (init import_env) env h i) = Some PNone.
Proof.
  intros import_env env h i Hk.
  rewrite store_unconfigured by exact Hk.
  repeat split; reflexivity.
Qed.

Lemma store_without_key_witness :
  truthy (getenv env_unconfigured "INFURA_API_KEY") = false /\
  store_certificate_hash (init env_unconfigured) env_configured zero_hash 7
  = inr store_not_configured.
Proof.
  split; [reflexivity|].
  apply (store_without_key env_unconfigured env_configured zero_hash 7). reflexivity.
Defined.

(** C5 (counterexample): "not-a-hash" is not a 64-hex digest, yet anchoring
    it with the service configured returns success=true. *)
Lemma store_malformed_counterexample :
  valid_content_hash (py "not-a-hash") = false /\
  field "success" (store_certificate_hash (init env_configured) env_configured (py "not-a-hash") 7)
  = Some (PBool true).
Proof. split; vm_compute; reflexivity. Qed.

(** C5 (amended): the anchoring operation does not validate the content
    hash: with the service configured, every hash without surrogate code
    points is accepted with success=true (given a surrogate-free SECRET_KEY
    and an institution id of at most 4300 decimal digits). *)
Theorem store_accepts_any_hash : forall self env h i,
  truthy (infura_api_key self) = true ->
  no_surrogates h = true -> no_surrogates (secret_key env) = true ->
  (List.length (dec_digits (Z.abs i)) <= int_max_str_digits)%nat ->
  field "success" (store_certificate_hash self env h i) = Some (PBool true).
Proof.
  intros self env h i Hk Hh Hs Hi.
  destruct (store_success self env h i Hk Hh Hs Hi) as [t [Ht _]].
  rewrite Ht. reflexivity.
Qed.

Lemma store_accepts_any_hash_witness :
  valid_content_hash (py "not-a-hash") = false /\
  field "success" (store_certificate_hash (init env_configured) env_configured (py "not-a-hash") 7)
  = Some (PBool true).
Proof.
  split; [reflexivity|].
  apply store_accepts_any_hash; vm_compute; try reflexivity; lia.
Defined.

(** C6 (counterexample): the all-zero 64-hex hash is valid and anchoring it
    succeeds, but verifying it right after returns verified=false. *)
Lemma anchor_then_verify_counterexample :
  valid_content_hash zero_hash = true /\
  map (fun r => (field "success" r, field "verified" r))
    (run (init env_configured) env_configured [Store zero_hash 7; Verify zero_hash])
  = [(Some (PBool true), None); (None, Some (PBool false))].
Proof. split; vm_compute; reflexivity. Qed.

(** C6 (amended): with the service configured and a surrogate-free
    SECRET_KEY, after a successful anchoring of a valid 64-hex hash h,
    verifying h returns verified=true with a tx_hash "0x..." and block
    number 12345678 exactly when h starts with 'a'; otherwise verified=false
    with tx_hash and block_number None. *)
Theorem anchor_then_verify : forall self env h i,
  truthy (infura_api_key self) = true ->
  valid_content_hash h = true ->
  no_surrogates (secret_key env) = true ->
  field "success" (nth 0 (run self env [Store h i; Verify h]) (inr [])) = Some (PBool true) ->
  let r := nth 1 (run self env [Store h i; Verify h]) (inr []) in
  field "verified" r = Some (PBool (startswith_a h)) /\
  (startswith_a h = true ->
     (exists t, field "tx_hash" r = Some (PStr (py "0x" ++ t))) /\
     field "block_number" r = Some (PInt 12345678)) /\
  (startswith_a h = false ->
     field "tx_hash" r = Some PNone /\ field "block_number" r = Some PNone).
Proof.
  intros self env h i Hk Hv Hs _ r. subst r. cbn [run map nth exec].
  pose proof (valid_content_hash_no_surrogates h Hv) as Hh.
  destruct (startswith_a h) eqn:Ha.
  - destruct (verify_found self env h Hk Ha Hh Hs) as [t Ht]. rewrite Ht.
    split; [reflexivity | split; [intros _; split; [exists t|]; reflexivity | discriminate]].
  - rewrite (verify_not_found self env h Hk Ha).
    split; [reflexivity | split; [discriminate | intros _; split; reflexivity]].
Qed.


Lemma anchor_then_verify_witness :
  field "verified" (nth 1 (run (init env_configured) env_configured [Store a_hash 7; Verify a_hash]) (inr []))
  = Some (PBool true).
Proof.
  destruct (anchor_then_verify (init env_configured) env_configured a_hash 7
              eq_refl ltac:(vm_compute; reflexivity) ltac:(vm_compute; reflexivity)
              ltac:(vm_compute; reflexivity)) as [Hv _].
  exact Hv.
Defined.

(** C7: the mock transaction hash depends only on the hash, the institution
    id and SECRET_KEY: two calls in environments agreeing on SECRET_KEY give
    the same result (as do the anchoring calls that embed it), and a
    returned transaction hash is "0x" followed by the first 40 hex digits
    of the SHA-256 digest of the UTF-8 bytes of
    f"{certificate_hash}_{institution_id}_{SECRET_KEY or 'default'}". *)
Theorem mock_tx_hash_deterministic : forall env1 env2 h i,
  getenv env1 "SECRET_KEY" = getenv env2 "SECRET_KEY" ->
  _generate_mock_tx_hash env1 h i = _generate_mock_tx_hash env2 h i /\
  (forall self, store_certificate_hash self env1 h i = store_certificate_hash self env2 h i) /\
  (forall tx, _generate_mock_tx_hash env1 h i = inr tx ->
     exists ds bytes, int_to_str i = inr ds /\
       encode (h ++ py "_" ++ ds ++ py "_" ++ secret_key env1) = inr bytes /\
       tx = py "0x" ++ firstn 40 (Sha256.hexdigest bytes)).
Proof.
  intros env1 env2 h i Hsk.
  assert (Hg : _generate_mock_tx_hash env1 h i = _generate_mock_tx_hash env2 h i).
  { unfold _generate_mock_tx_hash, getenv_default. rewrite Hsk. reflexivity. }
  split; [exact Hg | split].
  - intro self. unfold store_certificate_hash. rewrite Hg. reflexivity.
  - intros tx Htx. unfold _generate_mock_tx_hash in Htx. fold (secret_key env1) in Htx.
    destruct (int_to_str i) as [e|ds] eqn:Hds; cbn [bind] in Htx; [discriminate|].
    destruct (encode (h ++ py "_" ++ ds ++ py "_" ++ secret_key env1)) as [e|bytes] eqn:Hb;
      cbn [bind] in Htx; [discriminate|].
    exists ds, bytes. split; [reflexivity | split; [exact Hb|]].
    apply outcome_inr_inj in Htx. symmetry. exact Htx.
Qed.


Lemma mock_tx_hash_deterministic_witness :
  _generate_mock_tx_hash env_configured a_hash 7 = _generate_mock_tx_hash env_other_key a_hash 7.
Proof.
  destruct (mock_tx_hash_deterministic env_configured env_other_key a_hash 7 eq_refl)
    as [Hg _].
  exact Hg.
Defined.

(** C8: with the service configured, verifying the empty string returns
    verified=false, tx_hash None, block_number None and the message
    'Certificate not found on blockchain'. *)
Theorem verify_empty_hash : forall self env,
  truthy (infura_api_key self) = true ->
  verify_certificate_hash self env [] =
  inr [("verified", PBool false); ("tx_hash", PNone); ("block_number", PNone);
       ("message", PStr (py "Certificate not found on blockchain"))].
Proof.
  intros self env Hk. apply verify_not_found; [exact Hk | reflexivity].
Qed.

Lemma verify_empty_hash_witness :
  verify_certificate_hash (init env_configured) env_configured [] =
  inr [("verified", PBool false); ("tx_hash", PNone); ("block_number", PNone);
       ("message", PStr (py "Certificate not found on blockchain"))].
Proof. apply verify_empty_hash. reflexivity. Defined.

(** C9 (counterexample): with the service configured, anchoring the string
    made of the lone surrogate U+D800 raises inside the UTF-8 encoding; the
    exception is caught and the call returns success=false. *)
Lemma store_always_succeeds_counterexample :
  field "success" (store_certificate_hash (init env_configured) env_configured [55296] 7)
  = Some (PBool false).
Proof. vm_compute. reflexivity. Qed.

(** C9 (amended): with the service configured, anchoring performs no
    validation. For every hash without surrogate code points, every
    institution id of at most 4300 decimal digits and a surrogate-free
    SECRET_KEY, it returns success=true, a tx_hash "0x" followed by exactly
    40 lowercase hex digits, block number 12345678 and gas 21000; for every
    other input the exception raised while building the transaction hash is
    caught and the "transaction failed" dictionary (success=false) is
    returned. *)
Theorem store_result_shape : forall self env h i,
  truthy (infura_api_key self) = true ->
  let ok := no_surrogates h && no_surrogates (secret_key env)
            && (List.length (dec_digits (Z.abs i)) <=? int_max_str_digits)%nat in
  ((ok = true ->
    exists t, List.length t = 40%nat /\ forallb is_hex_lower t = true /\
      store_certificate_hash self env h i =
      inr [("success", PBool true);
           ("tx_hash", PStr (py "0x" ++ t));
           ("block_number", PInt 12345678);
           ("gas_used", PInt 21000);
           ("message", PStr (py "Certificate hash stored on blockchain successfully"))]) /\
   (ok = false ->
    exists e, store_certificate_hash self env h i = inr (store_failed e) /\
      field "success" (store_certificate_hash self env h i) = Some (PBool false)))%type.
Proof.
  intros self env h i Hk ok. subst ok. split.
  - intros Hok. apply andb_true_iff in Hok as [Hok Hi].
    apply andb_true_iff in Hok as [Hh Hs]. apply Nat.leb_le in Hi.
    destruct (store_success self env h i Hk Hh Hs Hi) as [t [Ht [Hl Hx]]].
    exists t. split; [exact Hl | split; [exact Hx | exact Ht]].
  - intros Hok.
    assert (Hg : exists e, _generate_mock_tx_hash env h i = inl e).
    { destruct (List.length (dec_digits (Z.abs i)) <=? int_max_str_digits)%nat eqn:Hi.
      - rewrite andb_true_r in Hok. apply generate_fail. exact Hok.
      - apply Nat.leb_gt in Hi. unfold _generate_mock_tx_hash, int_to_str.
        replace (int_max_str_digits <? List.length (dec_digits (Z.abs i)))%nat with true
          by (symmetry; apply Nat.ltb_lt; exact Hi).
        eexists. reflexivity. }
    destruct Hg as [e He].
    assert (Hst : store_certificate_hash self env h i = inr (store_failed e)).
    { unfold store_certificate_hash. rewrite Hk. cbn [negb]. rewrite He. reflexivity. }
    exists e. rewrite Hst. split; reflexivity.
Qed.

Lemma store_result_shape_witness :
  (exists t, List.length t = 40%nat /\ forallb is_hex_lower t = true /\
    store_certificate_hash (init env_configured) env_configured (py "xyz") (-5) =
    inr [("success", PBool true);
         ("tx_hash", PStr (py "0x" ++ t));
         ("block_number", PInt 12345678);
         ("gas_used", PInt 21000);
         ("message", PStr (py "Certificate hash stored on blockchain successfully"))]) /\
  (exists e, store_certificate_hash (init env_configured)
               [("INFURA_API_KEY", py "k"); ("SECRET_KEY", [56320])] (py "xyz") 7
             = inr (store_failed e) /\
     field "success" (store_certificate_hash (init env_configured)
               [("INFURA_API_KEY", py "k"); ("SECRET_KEY", [56320])] (py "xyz") 7)
     = Some (PBool false)).
Proof.
  split.
  - destruct (store_result_shape (init env_configured) env_configured (py "xyz") (-5) eq_refl)
      as [H _].
    apply H. vm_compute. reflexivity.
  - destruct (store_result_shape (init env_configured)
                [("INFURA_API_KEY", py "k"); ("SECRET_KEY", [56320])] (py "xyz") 7 eq_refl)
      as [_ H].
    apply H. vm_compute. reflexivity.
Defined.

(** C10: both public operations return a dictionary for every input (no
    exception propagates). A result of store_certificate_hash has success
    true, or success false with an 'error' string. A result of
    verify_certificate_hash has verified true, or verified false with an
    'error' string or with the message 'Certificate not found on
    blockchain' (the negative verdict). *)
Theorem public_operations_total : forall self env h i,
  (exists d, store_certificate_hash self env h i = inr d /\
     (dict_get d "success" = Some (PBool true) \/
      (dict_get d "success" = Some (PBool false) /\
       exists m, dict_get d "error" = Some (PStr m)))) /\
  (exists d, verify_certificate_hash self env h = inr d /\
     (dict_get d "verified" = Some (PBool true) \/
      (dict_get d "verified" = Some (PBool false) /\
       ((exists m, dict_get d "error" = Some (PStr m)) \/
        dict_get d "message" = Some (PStr (py "Certificate not found on blockchain")))))).
Proof.
  intros self env h i. split.
  - unfold store_certificate_hash.
    destruct (truthy (infura_api_key self)); cbn [negb].
    + destruct (_generate_mock_tx_hash env h i) as [e|t]; cbn [bind try_except].
      * eexists. split; [reflexivity|]. right. split; [reflexivity | eexists; reflexivity].
      * eexists. split; [reflexivity|]. left. reflexivity.
    + eexists. split; [reflexivity|]. right. split; [reflexivity | eexists; reflexivity].
  - unfold verify_certificate_hash.
    destruct (truthy (infura_api_key self)); cbn [negb].
    + rewrite simulate_startswith. destruct (startswith_a h).
      * destruct (_generate_mock_tx_hash env h 1) as [e|t]; cbn [bind try_except].
        -- eexists. split; [reflexivity|]. right.
           split; [reflexivity | left; eexists; reflexivity].
        -- eexists. split; [reflexivity|]. left. reflexivity.
      * eexists. split; [reflexivity|]. right. split; [reflexivity | right; reflexivity].
    + eexists. split; [reflexivity|]. right.
      split; [reflexivity | left; eexists; reflexivity].
Qed.

(** ** Further properties of the module *)

Lemma generate_shape : forall env h i tx,
  _generate_mock_tx_hash env h i = inr tx ->
  exists t, tx = py "0x" ++ t /\ List.length t = 40%nat /\ forallb is_hex_lower t = true.
Proof.
  intros env h i tx Htx. unfold _generate_mock_tx_hash in Htx.
  destruct (int_to_str i) as [e|ds]; cbn [bind] in Htx; [discriminate|].
  destruct (encode _) as [e|b]; cbn [bind] in Htx; [discriminate|].
  apply outcome_inr_inj in Htx. subst tx.
  exists (firstn 40 (Sha256.hexdigest b)). split; [reflexivity | split].
  - rewrite length_firstn, hexdigest_length. reflexivity.
  - apply forallb_firstn, hexdigest_hex.
Qed.

Lemma encode_from_first_surrogate : forall p c r pos,
  no_surrogates p = true -> is_surrogate c = true ->
  encode_from pos (p ++ c :: r)
  = inl (UnicodeEncodeError (pos + List.length p) (pos + List.length p + surrogate_run (c :: r)) c).
Proof.
  induction p as [|x p IH]; intros c r pos Hp Hc.
  - cbn [app encode_from]. rewrite Hc. cbn [List.length]. rewrite Nat.add_0_r. reflexivity.
  - cbn [app encode_from]. apply andb_true_iff in Hp as [Hx Hp].
    apply negb_true_iff in Hx. rewrite Hx. rewrite (IH c r (S pos) Hp Hc). cbn [bind List.length].
    rewrite !Nat.add_succ_r. reflexivity.
Qed.

(** X1: an INFURA_API_KEY set to the empty string counts as missing: the
    service gets no network URL, and both operations return their
    "not configured" results for every input. *)
Theorem empty_api_key_unconfigured : forall import_env,
  getenv import_env "INFURA_API_KEY" = Some [] ->
  network_url (init import_env) = None /\
  (forall env h i, store_certificate_hash (init import_env) env h i = inr store_not_configured) /\
  (forall env h, verify_certificate_hash (init import_env) env h = inr verify_not_configured).
Proof.
  intros import_env Hk. unfold init. rewrite Hk. cbn [truthy].
  split; [reflexivity | split].
  - intros env h i. unfold store_certificate_hash. reflexivity.
  - intros env h. unfold verify_certificate_hash. reflexivity.
Qed.

Definition env_empty_key : environ := [("INFURA_API_KEY", []); ("SECRET_KEY", py "s3cret")].

Lemma empty_api_key_unconfigured_witness :
  network_url (init env_empty_key) = None.
Proof. destruct (empty_api_key_unconfigured env_empty_key eq_refl) as [H _]. exact H. Defined.

(** X2: the module-level functions use the instance built when the module
    was imported: if INFURA_API_KEY was missing or empty then, both
    operations report "not configured" even when the key is present in the
    environment at call time. *)
Theorem module_instance_fixed_at_import : forall import_env env h i,
  truthy (getenv import_env "INFURA_API_KEY") = false ->
  store_certificate_on_blockchain import_env env h i = inr store_not_configured /\
  verify_certificate_on_blockchain import_env env h = inr verify_not_configured.
Proof.
  intros import_env env h i Hk.
  unfold store_certificate_on_blockchain, verify_certificate_on_blockchain,
    blockchain_service, store_certificate_hash, verify_certificate_hash.
  cbn [infura_api_key init]. rewrite Hk. split; reflexivity.
Qed.

Lemma module_instance_fixed_at_import_witness :
  truthy (getenv env_configured "INFURA_API_KEY") = true /\
  verify_certificate_on_blockchain env_unconfigured env_configured a_hash
  = inr verify_not_configured.
Proof.
  split; [reflexivity|].
  destruct (module_instance_fixed_at_import env_unconfigured env_configured a_hash 1 eq_refl)
    as [_ H].
  exact H.
Defined.

(** X3: every verification result carries a consistent proof record:
    verified=true comes with a tx_hash "0x" plus 40 lowercase hex digits and
    block number 12345678; verified=false comes with tx_hash None. *)
Theorem verify_result_consistent : forall self env h,
  exists d, verify_certificate_hash self env h = inr d /\
  ((dict_get d "verified" = Some (PBool true) /\
    (exists t, dict_get d "tx_hash" = Some (PStr (py "0x" ++ t)) /\
               List.length t = 40%nat /\ forallb is_hex_lower t = true) /\
    dict_get d "block_number" = Some (PInt 12345678)) \/
   (dict_get d "verified" = Some (PBool false) /\ dict_get d "tx_hash" = Some PNone)).
Proof.
  intros self env h. unfold verify_certificate_hash.
  destruct (truthy (infura_api_key self)); cbn [negb].
  - rewrite simulate_startswith. destruct (startswith_a h).
    + destruct (_generate_mock_tx_hash env h 1) as [e|tx] eqn:Hg; cbn [bind try_except].
      * eexists. split; [reflexivity|]. right. split; reflexivity.
      * destruct (generate_shape env h 1 tx Hg) as [t [Ht [Hl Hx]]]. subst tx.
        eexists. split; [reflexivity|]. left.
        split; [reflexivity | split; [exists t; split; [reflexivity | split; assumption] | reflexivity]].
    + eexists. split; [reflexivity|]. right. split; reflexivity.
  - eexists. split; [reflexivity|]. right. split; reflexivity.
Qed.

(** X4: every anchoring result is consistent: success=true comes with a
    tx_hash "0x" plus 40 lowercase hex digits, block number 12345678 and gas
    21000; success=false comes with tx_hash None and an error string. *)
Theorem store_result_consistent : forall self env h i,
  exists d, store_certificate_hash self env h i = inr d /\
  ((dict_get d "success" = Some (PBool true) /\
    (exists t, dict_get d "tx_hash" = Some (PStr (py "0x" ++ t)) /\
               List.length t = 40%nat /\ forallb is_hex_lower t = true) /\
    dict_get d "block_number" = Some (PInt 12345678) /\
    dict_get d "gas_used" = Some (PInt 21000)) \/
   (dict_get d "success" = Some (PBool false) /\ dict_get d "tx_hash" = Some PNone /\
    exists m, dict_get d "error" = Some (PStr m))).
Proof.
  intros self env h i. unfold store_certificate_hash.
  destruct (truthy (infura_api_key self)); cbn [negb].
  - destruct (_generate_mock_tx_hash env h i) as [e|tx] eqn:Hg; cbn [bind try_except].
    + eexists. split; [reflexivity|]. right.
      split; [reflexivity | split; [reflexivity | eexists; reflexivity]].
    + destruct (generate_shape env h i tx Hg) as [t [Ht [Hl Hx]]]. subst tx.
      eexists. split; [reflexivity|]. left.
      split; [reflexivity | split; [exists t; split; [reflexivity | split; assumption] |
                                    split; reflexivity]].
  - eexists. split; [reflexivity|]. right.
    split; [reflexivity | split; [reflexivity | eexists; reflexivity]].
Qed.

(** X5: the transaction hash reported by a successful verification is the
    one anchoring the same hash under institution id 1 returns, whatever
    institution actually anchored it. *)
Theorem verify_tx_is_institution_one : forall self env h,
  field "verified" (verify_certificate_hash self env h) = Some (PBool true) ->
  field "tx_hash" (verify_certificate_hash self env h)
  = field "tx_hash" (store_certificate_hash self env h 1).
Proof.
  intros self env h Hv. revert Hv.
  unfold verify_certificate_hash, store_certificate_hash.
  destruct (truthy (infura_api_key self)); cbn [negb]; [|discriminate].
  rewrite simulate_startswith. destruct (startswith_a h); [|discriminate].
  destruct (_generate_mock_tx_hash env h 1) as [e|tx]; cbn [bind try_except];
    [discriminate | reflexivity].
Qed.

Lemma verify_tx_is_institution_one_witness :
  field "tx_hash" (verify_certificate_hash (init env_configured) env_configured a_hash)
  = field "tx_hash" (store_certificate_hash (init env_configured) env_configured a_hash 1).
Proof. apply verify_tx_is_institution_one. vm_compute. reflexivity. Defined.

Definition int_limit_error : exc :=
  ValueError (py "Exceeds the limit (4300 digits) for integer string conversion; use sys.set_int_max_str_digits() to increase the limit").

(** X6: with the service configured, an institution id with more than 4300
    decimal digits makes the f-string in [_generate_mock_tx_hash] raise
    ValueError, whatever the hash; the anchoring call reports it as
    success=false with "Blockchain transaction failed: Exceeds the limit
    ...". *)
Theorem store_huge_institution_id : forall self env h i,
  truthy (infura_api_key self) = true ->
  (int_max_str_digits < List.length (dec_digits (Z.abs i)))%nat ->
  store_certificate_hash self env h i = inr (store_failed int_limit_error).
Proof.
  intros self env h i Hk Hi. unfold store_certificate_hash. rewrite Hk. cbn [negb].
  unfold _generate_mock_tx_hash, int_to_str.
  replace (int_max_str_digits <? List.length (dec_digits (Z.abs i)))%nat with true
    by (symmetry; apply Nat.ltb_lt; exact Hi).
  reflexivity.
Qed.

Lemma dec_digits_fuel_length_mono : forall f n acc,
  (List.length acc <= List.length (dec_digits_fuel f n acc))%nat.
Proof.
  induction f as [|f IH]; intros n acc; cbn [dec_digits_fuel]; [lia|].
  destruct (n <? 10); cbn [List.length]; [lia|].
  specialize (IH (n / 10) ((48 + n mod 10) :: acc)). cbn [List.length] in IH. lia.
Qed.

(** A number of at least 10^j has more than j decimal digits, given enough fuel. *)
Lemma dec_digits_fuel_length_ge : forall j f n acc,
  10 ^ Z.of_nat j <= n -> (j < f)%nat ->
  (j + 1 + List.length acc <= List.length (dec_digits_fuel f n acc))%nat.
Proof.
  induction j as [|j IH]; intros f n acc Hn Hf; destruct f as [|f]; try lia;
    cbn [dec_digits_fuel].
  - destruct (n <? 10); cbn [List.length]; [lia|].
    pose proof (dec_digits_fuel_length_mono f (n / 10) ((48 + n mod 10) :: acc)) as Hm.
    cbn [List.length] in Hm. lia.
  - assert (Hp : 1 <= 10 ^ Z.of_nat j)
      by (pose proof (Z.pow_pos_nonneg 10 (Z.of_nat j) ltac:(lia) ltac:(lia)); lia).
    rewrite Nat2Z.inj_succ, Z.pow_succ_r in Hn by lia.
    replace (n <? 10) with false by (symmetry; apply Z.ltb_ge; lia).
    assert (Hd : 10 ^ Z.of_nat j <= n / 10) by (apply Z.div_le_lower_bound; lia).
    specialize (IH f (n / 10) ((48 + n mod 10) :: acc) Hd ltac:(lia)).
    cbn [List.length] in IH. lia.
Qed.

Lemma store_huge_institution_id_witness :
  field "success" (store_certificate_hash (init env_configured) env_configured a_hash (10 ^ 4300))
  = Some (PBool false).
Proof.
  assert (Hfuel : (4300 < S (Z.to_nat (Z.log2 (Z.max 1 (Z.abs (10 ^ 4300))))))%nat)
    by (apply Nat.ltb_lt; vm_compute; reflexivity).
  assert (Habs : 10 ^ Z.of_nat 4300 <= Z.abs (10 ^ 4300)).
  { rewrite Z.abs_eq by (apply Z.pow_nonneg; lia). apply Z.le_refl. }
  pose proof (dec_digits_fuel_length_ge 4300 _ (Z.abs (10 ^ 4300)) [] Habs Hfuel) as Hlen.
  rewrite (store_huge_institution_id (init env_configured) env_configured a_hash (10 ^ 4300)
             eq_refl Hlen).
  reflexivity.
Defined.

(** X7: with the service configured and an institution id of at most 4300
    digits, a hash whose first surrogate code point c sits at index n makes
    the anchoring call return success=false, reporting the
    UnicodeEncodeError at position n for character c. *)
Theorem store_surrogate_position : forall self env p c r i,
  truthy (infura_api_key self) = true ->
  no_surrogates p = true -> is_surrogate c = true ->
  (List.length (dec_digits (Z.abs i)) <= int_max_str_digits)%nat ->
  exists stop, store_certificate_hash self env (p ++ c :: r) i
               = inr (store_failed (UnicodeEncodeError (List.length p) stop c)).
Proof.
  intros self env p c r i Hk Hp Hc Hi. unfold store_certificate_hash. rewrite Hk. cbn [negb].
  unfold _generate_mock_tx_hash.
  destruct (int_to_str_ok i Hi) as [ds [Hds _]]. rewrite Hds. cbn [bind].
  unfold encode. rewrite <- app_assoc, <- app_comm_cons.
  rewrite (encode_from_first_surrogate p c _ O Hp Hc).
  eexists. reflexivity.
Qed.

Lemma store_surrogate_position_witness :
  exists stop, store_certificate_hash (init env_configured) env_configured
                 (py "ab" ++ 56320 :: py "cd") 7
               = inr (store_failed (UnicodeEncodeError (List.length (py "ab")) stop 56320)).
Proof.
  apply store_surrogate_position; vm_compute; try reflexivity; lia.
Defined.

(** X8: when SECRET_KEY is not set, the mock transaction hashes (and so the
    anchoring and verification results) are those of SECRET_KEY="default":
    anyone can recompute them from the hash and the institution id. *)
Theorem secret_key_defaults : forall env h i,
  getenv env "SECRET_KEY" = None ->
  let env' := ("SECRET_KEY", py "default") :: env in
  _generate_mock_tx_hash env h i = _generate_mock_tx_hash env' h i /\
  (forall self, store_certificate_hash self env h i = store_certificate_hash self env' h i) /\
  (forall self, verify_certificate_hash self env h = verify_certificate_hash self env' h).
Proof.
  intros env h i Hs env'.
  assert (Hg : forall j, _generate_mock_tx_hash env h j = _generate_mock_tx_hash env' h j).
  { intro j. unfold _generate_mock_tx_hash, getenv_default. rewrite Hs. reflexivity. }
  split; [apply Hg | split].
  - intro self. unfold store_certificate_hash. rewrite Hg. reflexivity.
  - intro self. unfold verify_certificate_hash. rewrite Hg. reflexivity.
Qed.


Lemma secret_key_defaults_witness :
  _generate_mock_tx_hash env_no_secret a_hash 7
  = _generate_mock_tx_hash (("SECRET_KEY", py "default") :: env_no_secret) a_hash 7.
Proof. destruct (secret_key_defaults env_no_secret a_hash 7 eq_refl) as [H _]. exact H. Defined.

(** X9: with the service configured, the verification error path ("Blockchain
    verification failed: ...") is reached only for hashes starting with 'a'
    whose mock transaction hash cannot be encoded (a surrogate in the hash
    or in SECRET_KEY); any other hash gets a verdict. *)
Theorem verify_error_only_for_a_prefix : forall self env h d,
  truthy (infura_api_key self) = true ->
  verify_certificate_hash self env h = inr d ->
  dict_get d "error" <> None ->
  startswith_a h = true /\ no_surrogates h && no_surrogates (secret_key env) = false.
Proof.
  intros self env h d Hk Hv He.
  destruct (startswith_a h) eqn:Ha.
  - split; [reflexivity|].
    destruct (no_surrogates h && no_surrogates (secret_key env)) eqn:Hn; [|reflexivity].
    apply andb_true_iff in Hn as [Hh Hs].
    destruct (verify_found self env h Hk Ha Hh Hs) as [t Ht].
    rewrite Ht in Hv. apply outcome_inr_inj in Hv. subst d. exfalso. apply He. reflexivity.
  - rewrite (verify_not_found self env h Hk Ha) in Hv.
    apply outcome_inr_inj in Hv. subst d. exfalso. apply He. reflexivity.
Qed.

Lemma verify_error_only_for_a_prefix_witness :
  startswith_a [97; 55296] = true /\
  no_surrogates [97; 55296] && no_surrogates (secret_key env_configured) = false.
Proof.
  apply (verify_error_only_for_a_prefix (init env_configured) env_configured [97; 55296]
           (verify_failed (UnicodeEncodeError 1 2 55296))); vm_compute;
    [reflexivity | reflexivity | discriminate].
Defined.
